(** * Verification model of [src/src/orchestration.py] (finance-qa-agent)

    The program configures five agents of the OpenAI agents SDK (a triage
    agent, three specialists and a critic), one file-search tool over a
    hard-coded vector store and one web-search tool, then runs the triage
    agent once per question with [Runner.run] and prints a hand-off report
    computed from the final output.

    The file has three parts:
    - the configuration of [orchestration.py] (agents, tools, hand-offs);
    - a model of the SDK runner loop that [main] calls ([Runner.run],
      [Agent.as_tool], hand-offs), which is library code: the generation
      capability (the LLM) and the hosted tools are parameters;
    - [main]: the vector-store set-up and the per-question report. *)

From Stdlib Require Import List String Ascii Bool Arith Lia.
Import ListNotations.
Open Scope string_scope.

(* ------------------------------------------------------------------ *)
(** ** Strings: Python's [in] and [str.lower] on ASCII text *)

Fixpoint is_prefix (p s : string) : bool :=
  match p, s with
  | EmptyString, _ => true
  | String c p', String d s' => Ascii.eqb c d && is_prefix p' s'
  | String _ _, EmptyString => false
  end.

(** [contains s p] is Python's [p in s]. *)
Fixpoint contains (s p : string) : bool :=
  is_prefix p s ||
  match s with
  | EmptyString => false
  | String _ s' => contains s' p
  end.

(** [str.lower] restricted to ASCII: 'A'..'Z' are mapped to 'a'..'z'. *)
Definition lower_char (c : ascii) : ascii :=
  let n := nat_of_ascii c in
  if ((65 <=? n) && (n <=? 90))%nat then ascii_of_nat (n + 32)%nat else c.

Fixpoint lower (s : string) : string :=
  match s with
  | EmptyString => EmptyString
  | String c s' => String (lower_char c) (lower s')
  end.

(* ------------------------------------------------------------------ *)
(** ** Tools and agents of [orchestration.py] *)

(** The tools an [Agent] may list: the two hosted tools
    ([FileSearchTool], [WebSearchTool]) and agents exposed as function
    tools by [Agent.as_tool]. Agents are referred to by name. *)
Inductive Tool : Type :=
| FileSearchTool (vector_store_ids : list string) (max_num_results : nat)
    (include_search_results : bool)
| WebSearchTool (search_context_size : string)
| AgentAsTool (tool_name : string) (tool_description : string)
    (agent_name : string).

(** The name under which the model invokes a tool. *)
Definition tool_name (t : Tool) : string :=
  match t with
  | FileSearchTool _ _ _ => "file_search"
  | WebSearchTool _ => "web_search"
  | AgentAsTool n _ _ => n
  end.

(** An [Agent(...)] constructor call. The prompt texts are kept as the
    names of the Python constants holding them: the runner never inspects
    them, it only passes them to the generation capability. *)
Record Agent : Type := mkAgent {
  name : string;
  model : string;
  instructions : string;
  tools : list Tool;
  handoffs : list string
}.

(** The SDK names the hand-off tool of a target agent
    [transfer_to_<agent name>]. *)
Definition transfer_name (target : string) : string :=
  "transfer_to_" ++ target.

Definition file_search_tool : Tool :=
  FileSearchTool ["vs_68993210d6d481918d95319746f5d133"] 5 true.

Definition web_search_tool : Tool := WebSearchTool "medium".

Definition critic_agent : Agent := {|
  name := "critic_agent"; model := "gpt-4o";
  instructions := "critic_agent_prompt";
  tools := [file_search_tool; web_search_tool];
  handoffs := [] |}.

Definition basic_agent : Agent := {|
  name := "basic_agent"; model := "gpt-4o";
  instructions := "basic_agent_prompt";
  tools := [file_search_tool];
  handoffs := [] |}.

Definition assumption_agent : Agent := {|
  name := "assumption_agent"; model := "gpt-4o";
  instructions := "assumption_agent_prompt";
  tools := [file_search_tool; web_search_tool];
  handoffs := [name critic_agent] |}.

Definition conceptual_agent : Agent := {|
  name := "conceptual_agent"; model := "gpt-4o";
  instructions := "conceptual_agent_prompt";
  tools := [];
  handoffs := [] |}.

Definition triage_agent : Agent := {|
  name := "triage_agent"; model := "gpt-4o";
  instructions := "triage_agent_prompt";
  tools := [file_search_tool; web_search_tool;
            AgentAsTool "consult_basic_specialist"
              "Use when the question is classified as basic." (name basic_agent);
            AgentAsTool "consult_assumption_specialist"
              "Use when the question is classified as assumption-based."
              (name assumption_agent);
            AgentAsTool "consult_conceptual_specialist"
              "Use when the question is classified as conceptual."
              (name conceptual_agent)];
  handoffs := [name basic_agent; name assumption_agent; name conceptual_agent] |}.

(** Every agent object of the module, looked up by name when a hand-off
    or an agent tool refers to it. *)
Definition agents : list Agent :=
  [critic_agent; basic_agent; assumption_agent; conceptual_agent; triage_agent].

Definition lookup_agent (n : string) : option Agent :=
  find (fun a => String.eqb (name a) n) agents.

(* ------------------------------------------------------------------ *)
(** ** The SDK runner loop called by [main]

    A model of [Runner.run] for agents without [output_type]: each turn the
    model API is called for the current agent, and either raises (an
    [openai.APIError]: connection, authentication, rate limit, a rejected
    request) or responds with a list of output items; hand-off calls switch
    the current agent, agent tools run a nested [Runner.run] on the
    consulted agent, a response without function-tool call or hand-off
    ends the run with its last text (the empty string when it has none) as final
    output, and more than [max_turns] model calls raise
    [MaxTurnsExceeded]. *)

(** Items of a run: the user input, then [RunResult.new_items]. *)
Inductive Item : Type :=
| IUser (text : string)
| IMessage (agent text : string)
| IToolCall (agent tool arg result : string)
| IHandoff (source target : string).

(** One output item of a model response: a text message, or a call of a
    tool by name (hosted tool, function tool or [transfer_to_...]). *)
Inductive Action : Type :=
| AText (text : string)
| ACall (tool arg : string).

(** The outcome of one call of the model API: a response, or an
    exception raised by the OpenAI client, which [Runner.run] lets
    through. *)
Inductive ModelResponse : Type :=
| Responded (output : list Action)
| APIFailure (message : string).

(** [NestingTooDeep] is the fuel of this model for nested agent-tool runs;
    the program never nests more than two runs. *)
Inductive RunError : Type :=
| ModelBehaviorError (message : string)
| MaxTurnsExceeded (max_turns : nat)
| APIError (message : string)
| AgentNotFound (agent : string)
| NestingTooDeep.

Inductive RunResult : Type :=
| RunOk (final_output : string) (last_agent : string) (new_items : list Item)
| RunErr (e : RunError).

Definition DEFAULT_MAX_TURNS : nat := 10.

(** Python's [str] of a natural number, in decimal. *)
Fixpoint digits (fuel n : nat) (acc : string) : string :=
  match fuel with
  | O => acc
  | S f =>
      let acc' := String (ascii_of_nat (48 + n mod 10)) acc in
      if (n <? 10)%nat then acc' else digits f (n / 10) acc'
  end.

Definition string_of_nat (n : nat) : string := digits (S n) n "".

(** [ItemHelpers.text_message_outputs]: the texts of all message items,
    concatenated. *)
Fixpoint text_message_outputs (items : list Item) : string :=
  match items with
  | [] => ""
  | IMessage _ s :: rest => s ++ text_message_outputs rest
  | _ :: rest => text_message_outputs rest
  end.

(** Text that a failing agent tool returns to the calling model
    ([default_tool_error_function]). *)
Definition tool_error_text (e : RunError) : string :=
  "An error occurred while running the tool. Please try again. Error: " ++
  match e with
  | ModelBehaviorError m => m
  | MaxTurnsExceeded n => "Max turns (" ++ string_of_nat n ++ ") exceeded"
  | APIError m => m
  | AgentNotFound a => "Agent " ++ a ++ " not found"
  | NestingTooDeep => "nesting too deep"
  end.

(** What one model response amounts to once processed. *)
Record Processed : Type := mkProcessed {
  p_items : list Item;
  p_handoff : option Agent;
  p_tools_ran : bool;
  p_last_text : option string
}.

Definition empty_processed : Processed := mkProcessed [] None false None.

Inductive NextStep : Type :=
| NextHandoff (target : Agent)
| NextRunAgain
| NextFinalOutput (output : string).

Section Runner.

(** The generation capability: the outcome of the model call for the
    agent of the given name on the given conversation. *)
Variable gen : string -> list Item -> ModelResponse.

(** The hosted tools, executed by the API: result of a tool on a query. *)
Variable hosted : Tool -> string -> string.

(** Running a tool the current agent lists. [run_sub] is the nested
    [Runner.run] of an agent exposed with [as_tool]; the tool result is
    [ItemHelpers.text_message_outputs(new_items)] of the nested run, and
    an exception of the nested run is reported to the model as text
    ([default_tool_error_function]). *)
Definition execute (run_sub : Agent -> string -> RunResult) (t : Tool)
    (arg : string) : string :=
  match t with
  | AgentAsTool _ _ an =>
      match lookup_agent an with
      | Some a =>
          match run_sub a arg with
          | RunOk _ _ items => text_message_outputs items
          | RunErr e => tool_error_text e
          end
      | None => tool_error_text (AgentNotFound an)
      end
  | _ => hosted t arg
  end.

(** [process_model_response] followed by tool execution: a call name is
    first looked up among the current agent's hand-off tools, then among
    its tools; an unknown name raises [ModelBehaviorError]. Only the first
    hand-off is taken, later ones are ignored. Only function tools (agent
    tools) make the runner call the model again; hosted tools run inside
    the response. *)
Fixpoint process_actions (run_sub : Agent -> string -> RunResult)
    (cur : Agent) (acts : list Action) (acc : Processed)
    : RunError + Processed :=
  match acts with
  | [] => inr acc
  | AText s :: rest =>
      process_actions run_sub cur rest
        (mkProcessed (p_items acc ++ [IMessage (name cur) s]) (p_handoff acc)
           (p_tools_ran acc) (Some s))
  | ACall n arg :: rest =>
      match find (fun h => String.eqb (transfer_name h) n) (handoffs cur) with
      | Some h =>
          match p_handoff acc with
          | Some _ => process_actions run_sub cur rest acc
          | None =>
              match lookup_agent h with
              | Some tgt =>
                  process_actions run_sub cur rest
                    (mkProcessed (p_items acc ++ [IHandoff (name cur) h])
                       (Some tgt) (p_tools_ran acc) (p_last_text acc))
              | None => inl (AgentNotFound h)
              end
          end
      | None =>
          match find (fun t => String.eqb (tool_name t) n) (tools cur) with
          | Some t =>
              let r := execute run_sub t arg in
              process_actions run_sub cur rest
                (mkProcessed (p_items acc ++ [IToolCall (name cur) n arg r])
                   (p_handoff acc)
                   (p_tools_ran acc || match t with AgentAsTool _ _ _ => true
                                        | _ => false end)
                   (p_last_text acc))
          | None =>
              inl (ModelBehaviorError
                     ("Tool " ++ n ++ " not found in agent " ++ name cur))
          end
      end
  end.

(** A hand-off is taken first; otherwise a response that ran function
    tools makes the runner call the model again, and any other response is
    final, with the text of its last message, or the empty string when it
    has none (the SDK returns [potential_final_output_text], or the
    empty string when it is [None]). *)
Definition next_step (p : Processed) : NextStep :=
  match p_handoff p with
  | Some tgt => NextHandoff tgt
  | None =>
      if p_tools_ran p then NextRunAgain
      else NextFinalOutput (match p_last_text p with
                            | Some s => s
                            | None => EmptyString
                            end)
  end.

(** The turn loop of one [Runner.run], given its nested runner. *)
Fixpoint run_loop (run_sub : Agent -> string -> RunResult) (max_turns : nat)
    (input : list Item) (turns : nat) (cur : Agent) (generated : list Item)
    : RunResult :=
  match turns with
  | O => RunErr (MaxTurnsExceeded max_turns)
  | S t =>
      match gen (name cur) (input ++ generated) with
      | APIFailure m => RunErr (APIError m)
      | Responded acts =>
          match process_actions run_sub cur acts empty_processed with
          | inl e => RunErr e
          | inr p =>
              match next_step p with
              | NextHandoff tgt => run_loop run_sub max_turns input t tgt
                                     (generated ++ p_items p)
              | NextRunAgain => run_loop run_sub max_turns input t cur
                                  (generated ++ p_items p)
              | NextFinalOutput s => RunOk s (name cur) (generated ++ p_items p)
              end
          end
      end
  end.

(** [Runner.run(agent, input, max_turns=...)]; an agent tool runs
    [Runner.run(agent, input=arg)] with the default turn limit. *)
Fixpoint run_agent (depth : nat) (max_turns : nat) (start : Agent)
    (input : list Item) : RunResult :=
  match depth with
  | O => RunErr NestingTooDeep
  | S d =>
      run_loop (fun a arg => run_agent d DEFAULT_MAX_TURNS a [IUser arg])
        max_turns input max_turns start []
  end.

(** Nesting fuel of the model: enough for triage and one agent tool. *)
Definition nesting_fuel : nat := 3.

(** [result = await Runner.run(triage_agent, question)] in [main]. *)
Definition run_question (question : string) : RunResult :=
  run_agent nesting_fuel DEFAULT_MAX_TURNS triage_agent [IUser question].

(** The hand-off report [main] prints for a run: [hasattr(result,
    'final_output')] always holds for a [RunResult], then the test is
    ['critique' in str(out).lower() or 'review' in str(out).lower()]. *)
Inductive Report : Type :=
| HandoffConfirmed
| NoHandoffDetected.

Definition handoff_report (final_output : string) : Report :=
  if contains (lower final_output) "critique"
     || contains (lower final_output) "review"
  then HandoffConfirmed else NoHandoffDetected.

(** One iteration of the loop over [questions] in [main]; [None] when
    [Runner.run] raises (the exception is not caught). *)
Definition main_question (question : string) : option Report :=
  match run_question question with
  | RunOk s _ _ => Some (handoff_report s)
  | RunErr _ => None
  end.

End Runner.

(* ------------------------------------------------------------------ *)
(** ** Vector stores and the Document Search tool

    [main] creates a fresh vector store and uploads [src/data/context.txt]
    into it; [file_search_tool] searches the stores whose ids it was built
    with. *)

(** An indexed chunk: (snippet, source location). *)
Definition Chunk : Type := (string * string)%type.

(** The vector stores of the account, by id. *)
Definition Stores : Type := string -> list Chunk.

(** [client.vector_stores.create(...)] returning [new_id], followed by
    [client.vector_stores.files.upload_and_poll(vector_store_id=new_id,
    file=...)]. *)
Definition create_and_upload (st : Stores) (new_id : string)
    (doc : list Chunk) : Stores :=
  fun id => if String.eqb id new_id then doc else st id.

(** The stores as [main] leaves them before running the questions. *)
Definition main_stores (st : Stores) (new_id : string)
    (context : list Chunk) : Stores :=
  create_and_upload st new_id context.

Section DocumentSearch.

(** Relevance of a chunk to a query; ranking is the service's business. *)
Variable matches : string -> Chunk -> bool.

Definition store_search (st : Stores) (id q : string) : list Chunk :=
  filter (matches q) (st id).

(** A file-search call: the hits of every configured store, cut to
    [max_num_results]. *)
Definition file_search (st : Stores) (t : Tool) (q : string) : list Chunk :=
  match t with
  | FileSearchTool ids n _ => firstn n (flat_map (fun id => store_search st id q) ids)
  | _ => []
  end.

End DocumentSearch.

(* ------------------------------------------------------------------ *)
(** ** Concrete runs *)

Module Scenarios.

(** Hosted tools answer with a fixed string. *)
Definition hosted0 (t : Tool) (q : string) : string := "results for " ++ q.

(** Triage hands off to the assumption agent, which answers directly. *)
Definition gen_no_review (agent : string) (conv : list Item) : ModelResponse :=
  Responded (
    if String.eqb agent "triage_agent" then
      [ACall "file_search" "EV 2024"; ACall "transfer_to_assumption_agent" ""]
    else if String.eqb agent "assumption_agent" then [AText "EV/Sales is 2.1"]
    else [AText "unexpected"]).

(** Triage hands off to the assumption agent, which hands off to the
    critic, which corrects the figure. *)
Definition gen_review (agent : string) (conv : list Item) : ModelResponse :=
  Responded (
    if String.eqb agent "triage_agent" then
      [ACall "transfer_to_assumption_agent" ""]
    else if String.eqb agent "assumption_agent" then
      [AText "EV/Sales is 2.1"; ACall "transfer_to_critic_agent" ""]
    else if String.eqb agent "critic_agent" then
      [AText "Critique: EV/Sales is 1.9"]
    else [AText "unexpected"]).

(** Triage answers the question itself. *)
Definition gen_triage_answers (agent : string) (conv : list Item) : ModelResponse :=
  Responded (
    if String.eqb agent "triage_agent" then [AText "Gross profit in 2024 is 100"]
    else [AText "unexpected"]).

(** Triage classifies the question as basic and hands off; the basic agent
    answers with a bare number. *)
Definition gen_basic (agent : string) (conv : list Item) : ModelResponse :=
  Responded (
    if String.eqb agent "triage_agent" then [ACall "transfer_to_basic_agent" ""]
    else if String.eqb agent "basic_agent" then [AText "42"]
    else [AText "unexpected"]).

(** The basic agent answers with a text mentioning a review. *)
Definition gen_basic_review (agent : string) (conv : list Item) : ModelResponse :=
  Responded (
    if String.eqb agent "triage_agent" then [ACall "transfer_to_basic_agent" ""]
    else if String.eqb agent "basic_agent" then [AText "Please Review: 42"]
    else [AText "unexpected"]).

(** Same route as [gen_review], the critic's answer names no review. *)
Definition gen_critic_quiet (agent : string) (conv : list Item) : ModelResponse :=
  Responded (
    if String.eqb agent "triage_agent" then
      [ACall "transfer_to_assumption_agent" ""]
    else if String.eqb agent "assumption_agent" then
      [AText "EV/Sales is 2.1"; ACall "transfer_to_critic_agent" ""]
    else if String.eqb agent "critic_agent" then [AText "EV/Sales is 1.9"]
    else [AText "unexpected"]).


(** Two generations of the same question that search with different
    queries and route differently. *)
Definition gen_route_a (agent : string) (conv : list Item) : ModelResponse :=
  Responded (
    if String.eqb agent "triage_agent" then
      [ACall "file_search" "gross profit 2024"; ACall "transfer_to_basic_agent" ""]
    else [AText "Gross profit is 100"]).

Definition gen_route_b (agent : string) (conv : list Item) : ModelResponse :=
  Responded (
    if String.eqb agent "triage_agent" then
      [ACall "file_search" "gross profit";
       ACall "transfer_to_assumption_agent" ""]
    else [AText "Gross profit is about 100"]).

(** Triage consults the basic specialist as a tool, then answers. *)
Definition gen_consult (agent : string) (conv : list Item) : ModelResponse :=
  Responded (
    if String.eqb agent "triage_agent" then
      match conv with
      | [_] => [ACall "consult_basic_specialist" "Gross profit 2024"]
      | _ => [AText "Gross profit is 100"]
      end
    else [AText "100"]).

(** Vector stores before [main]: the hard-coded store holds another
    document. *)
Definition st0 : Stores :=
  fun id => if String.eqb id "vs_68993210d6d481918d95319746f5d133"
            then [("Costco revenue 2023", "costco_10k.pdf")] else [].

Definition context_chunks : list Chunk :=
  [("Gross profit 2024: 100", "context.txt")].

Definition match_all (q : string) (c : Chunk) : bool := true.

(** A model that only ever searches, never answers. *)
Definition gen_silent (agent : string) (conv : list Item) : ModelResponse :=
  Responded (
    [ACall "file_search" "gross profit"]).

(** The triage agent calls a tool it does not have for the question
    "bad" and answers the others. *)
Definition gen_batch (agent : string) (conv : list Item) : ModelResponse :=
  Responded (
    match conv with
    | [IUser q] => if String.eqb q "bad" then [ACall "calculator" q]
                   else [AText "Gross profit is 100"]
    | _ => [AText "Gross profit is 100"]
    end).

(** The model API fails on every call (e.g. the request is rejected). *)
Definition gen_api_down (agent : string) (conv : list Item) : ModelResponse :=
  APIFailure "Error code: 400 - Vector store not found".

(** Triage searches the context with query [x] and hands off to
    [target]; every other agent answers with a text. *)
Definition gen_pick (x target : string) (agent : string) (conv : list Item)
    : ModelResponse :=
  Responded (
    if String.eqb agent "triage_agent" then
      [ACall "file_search" x; ACall (transfer_name target) ""]
    else [AText "done"]).

(** Triage consults the assumption specialist as a tool; inside that
    nested run the assumption agent answers and hands off to the critic,
    which answers; triage then answers with its own text. *)
Definition gen_consult_review (agent : string) (conv : list Item) : ModelResponse :=
  Responded (
    if String.eqb agent "triage_agent" then
      match conv with
      | [_] => [ACall "consult_assumption_specialist" "EV/Sales 2024"]
      | _ => [AText "EV/Sales is 1.9"]
      end
    else if String.eqb agent "assumption_agent" then
      [AText "EV/Sales is 2.1"; ACall "transfer_to_critic_agent" ""]
    else if String.eqb agent "critic_agent" then [AText "Critique: 1.9"]
    else [AText "unexpected"]).

End Scenarios.

(* ------------------------------------------------------------------ *)
(** ** Audit views of a run *)

(** The static audit of §4.3 over the items of a run: every tool call
    names a tool of the calling agent, every hand-off a hand-off target of
    its source. *)
Definition tool_allowed (agent t : string) : bool :=
  match lookup_agent agent with
  | Some A => existsb (fun x => String.eqb (tool_name x) t) (tools A)
  | None => false
  end.

Definition handoff_allowed (src dst : string) : bool :=
  match lookup_agent src with
  | Some A => existsb (String.eqb dst) (handoffs A)
  | None => false
  end.

Definition item_allowed (i : Item) : bool :=
  match i with
  | IToolCall ag t _ _ => tool_allowed ag t
  | IHandoff src dst => handoff_allowed src dst
  | _ => true
  end.

Definition audit_items (items : list Item) : bool := forallb item_allowed items.

Definition handoff_events (items : list Item) : list (string * string) :=
  flat_map (fun i => match i with IHandoff s d => [(s, d)] | _ => [] end) items.

Definition tool_queries (items : list Item) : list (string * string) :=
  flat_map (fun i => match i with IToolCall _ t q _ => [(t, q)] | _ => [] end)
    items.

Definition result_items (r : RunResult) : list Item :=
  match r with RunOk _ _ items => items | RunErr _ => [] end.

Definition result_agent (r : RunResult) : option string :=
  match r with RunOk _ a _ => Some a | RunErr _ => None end.

(** The output shape §4.3 of the spec asks of every responder, read
    literally: the category restated, an answer or verdict and a list of
    assumptions. The program has no such check. *)
Definition spec_output_shape (s : string) : bool :=
  contains (lower s) "category" &&
  (contains (lower s) "answer" || contains (lower s) "verdict") &&
  contains (lower s) "assumptions".

(** The two ways the triage agent reaches a specialist [X]: the agent tool
    [tn], after which the model is called again for the triage agent with
    the texts of the specialist's run as tool result, and the hand-off, after which
    the model is called for [X]. *)
Definition triage_paths (gen : string -> list Item -> ModelResponse)
    (hosted : Tool -> string -> string) (run_sub : Agent -> string -> RunResult)
    (mt : nat) (input : list Item) (t : nat) (generated : list Item)
    (tn : string) (X : Agent) : Prop :=
  In tn (map tool_name (tools triage_agent)) /\
  In (name X) (handoffs triage_agent) /\
  (forall arg, gen "triage_agent" (input ++ generated)%list =
               Responded [ACall tn arg] ->
     run_loop gen hosted run_sub mt input (S t) triage_agent generated =
     run_loop gen hosted run_sub mt input t triage_agent
       ((generated ++ [IToolCall "triage_agent" tn arg
                        (match run_sub X arg with
                         | RunOk _ _ items => text_message_outputs items
                         | RunErr e => tool_error_text e
                         end)])%list)) /\
  (forall arg, gen "triage_agent" (input ++ generated)%list =
               Responded [ACall (transfer_name (name X)) arg] ->
     run_loop gen hosted run_sub mt input (S t) triage_agent generated =
     run_loop gen hosted run_sub mt input t X
       ((generated ++ [IHandoff "triage_agent" (name X)])%list)).

(* ------------------------------------------------------------------ *)
(** ** The batch loop of [main] *)

(** The [questions] list of [main]. *)
Definition questions : list string :=
  ["What is Gross Profit in the year ending 2024?"].

(** [for i, question in enumerate(questions, 1): ... result = await
    Runner.run(agent, question) ...]: one report per question, in order.
    [main] catches no exception, so an error of [Runner.run] ends [main]
    and the remaining questions are not run; the error is returned. *)
Fixpoint main_loop (gen : string -> list Item -> ModelResponse)
    (hosted : Tool -> string -> string) (qs : list string)
    : list Report * option RunError :=
  match qs with
  | [] => ([], None)
  | q :: rest =>
      match run_question gen hosted q with
      | RunErr e => ([], Some e)
      | RunOk s _ _ =>
          let '(rs, err) := main_loop gen hosted rest in
          (handoff_report s :: rs, err)
      end
  end.

(** Position of an agent in the hand-off chain of the configuration:
    triage hands off to assumption, assumption to critic. *)
Definition handoff_rank (n : string) : nat :=
  if String.eqb n "triage_agent" then 2
  else if String.eqb n "assumption_agent" then 1
  else 0.

(** The agents that [triage_agent] exposes or hands off to. *)
Definition specialists : list Agent :=
  [critic_agent; basic_agent; assumption_agent; conceptual_agent].

(** One for a chosen hand-off, zero for none. *)
Definition hcount (o : option Agent) : nat :=
  match o with Some _ => 1 | None => 0 end.

(** [evs] is a chain of hand-offs that starts at agent [a] and leaves
    control with agent [last]. *)
Fixpoint handoff_chain (a : string) (evs : list (string * string)) (last : string)
    : Prop :=
  match evs with
  | [] => a = last
  | (src, dst) :: rest => src = a /\ handoff_chain dst rest last
  end.

(** An output item that calls a hosted tool of the agent: the name is no
    hand-off name and the first tool of that name is not an agent tool. *)
Definition hosted_call (cur : Agent) (a : Action) : bool :=
  match a with
  | AText _ => false
  | ACall n _ =>
      match find (fun h => String.eqb (transfer_name h) n) (handoffs cur) with
      | Some _ => false
      | None =>
          match find (fun t => String.eqb (tool_name t) n) (tools cur) with
          | Some (AgentAsTool _ _ _) | None => false
          | Some _ => true
          end
      end
  end.

(* ------------------------------------------------------------------ *)
(** ** Lemmas on the runner *)

Section RunnerFacts.

Variable gen : string -> list Item -> ModelResponse.
Variable hosted : Tool -> string -> string.

Lemma run_loop_unfold : forall run_sub mt input t cur generated,
  run_loop gen hosted run_sub mt input (S t) cur generated =
  match gen (name cur) (input ++ generated) with
  | APIFailure m => RunErr (APIError m)
  | Responded acts =>
      match process_actions hosted run_sub cur acts empty_processed with
      | inl e => RunErr e
      | inr p =>
          match next_step p with
          | NextHandoff tgt => run_loop gen hosted run_sub mt input t tgt
                                 (generated ++ p_items p)
          | NextRunAgain => run_loop gen hosted run_sub mt input t cur
                              (generated ++ p_items p)
          | NextFinalOutput s => RunOk s (name cur) (generated ++ p_items p)
          end
      end
  end.
Proof. reflexivity. Qed.

(** A response made of one text message ends the run with that text. *)
Lemma run_loop_text_final : forall run_sub mt input t cur generated s,
  gen (name cur) (input ++ generated) = Responded [AText s] ->
  run_loop gen hosted run_sub mt input (S t) cur generated =
  RunOk s (name cur) (generated ++ [IMessage (name cur) s]).
Proof. intros run_sub mt input t cur generated s H. rewrite run_loop_unfold, H. reflexivity. Qed.

Lemma append_prefix_inj : forall p a b : string, p ++ a = p ++ b -> a = b.
Proof. induction p as [|c p IH]; simpl; intros a b H; [exact H|]. injection H. apply IH. Qed.

Lemma find_transfer : forall hs h,
  In h hs -> exists h', find (fun x => String.eqb (transfer_name x) (transfer_name h)) hs = Some h' /\ h' = h.
Proof.
  induction hs as [|x hs IH]; intros h Hin; [contradiction|]. cbn [find].
  destruct (String.eqb (transfer_name x) (transfer_name h)) eqn:E.
  - exists x. split; [reflexivity|]. apply String.eqb_eq in E.
    unfold transfer_name in E. exact (append_prefix_inj _ _ _ E).
  - destruct Hin as [<-|Hin]; [rewrite String.eqb_refl in E; discriminate|].
    exact (IH h Hin).
Qed.

(** A response made of one hand-off call passes control to the target. *)
Lemma run_loop_handoff_step : forall run_sub mt input t cur generated h arg tgt,
  gen (name cur) (input ++ generated) = Responded [ACall (transfer_name h) arg] ->
  In h (handoffs cur) ->
  lookup_agent h = Some tgt ->
  run_loop gen hosted run_sub mt input (S t) cur generated =
  run_loop gen hosted run_sub mt input t tgt (generated ++ [IHandoff (name cur) h]).
Proof.
  intros run_sub mt input t cur generated h arg tgt Hg Hin Hl.
  rewrite run_loop_unfold, Hg. cbn [process_actions].
  destruct (find_transfer (handoffs cur) h Hin) as [h' [Hf ->]].
  rewrite Hf. cbn [p_handoff empty_processed]. rewrite Hl. reflexivity.
Qed.

End RunnerFacts.

Lemma lookup_registered : forall h A,
  lookup_agent h = Some A -> lookup_agent (name A) = Some A.
Proof.
  unfold lookup_agent, agents. intros h A H. cbn [find] in H.
  repeat match goal with
  | H : (if ?b then _ else _) = _ |- _ =>
      destruct b; [injection H as <-; reflexivity|]
  end.
  discriminate.
Qed.

Lemma lookup_in_agents : forall A, In A agents -> lookup_agent (name A) = Some A.
Proof. intros A H. destruct H as [<-|[<-|[<-|[<-|[<-|[]]]]]]; reflexivity. Qed.

Lemma next_step_handoff : forall p tgt,
  next_step p = NextHandoff tgt -> p_handoff p = Some tgt.
Proof.
  intros p tgt. unfold next_step. destruct (p_handoff p); [congruence|].
  destruct (p_tools_ran p); discriminate.
Qed.

Section RunInvariants.

Variable gen : string -> list Item -> ModelResponse.
Variable hosted : Tool -> string -> string.

Lemma process_actions_audit : forall run_sub cur acts acc p,
  lookup_agent (name cur) = Some cur ->
  process_actions hosted run_sub cur acts acc = inr p ->
  audit_items (p_items acc) = true ->
  (forall tgt, p_handoff acc = Some tgt -> lookup_agent (name tgt) = Some tgt) ->
  audit_items (p_items p) = true /\
  (forall tgt, p_handoff p = Some tgt -> lookup_agent (name tgt) = Some tgt).
Proof.
  intros run_sub cur acts.
  induction acts as [|a acts IH]; intros acc p Hcur Hp Ha Hh.
  - injection Hp as <-. auto.
  - destruct a as [s|n arg]; cbn [process_actions] in Hp.
    + eapply IH; [exact Hcur|exact Hp| |exact Hh].
      cbn [p_items]. unfold audit_items in *. rewrite forallb_app, Ha. reflexivity.
    + destruct (find (fun h => String.eqb (transfer_name h) n) (handoffs cur))
        as [h|] eqn:Ef.
      * destruct (p_handoff acc) as [x|] eqn:Eh;
          [eapply IH; [exact Hcur|exact Hp|exact Ha|rewrite Eh; exact Hh]|].
        destruct (lookup_agent h) as [tgt|] eqn:El; [|discriminate].
        eapply IH; [exact Hcur|exact Hp| |].
        -- cbn [p_items]. unfold audit_items in *. rewrite forallb_app, Ha.
           cbn [forallb item_allowed andb]. rewrite andb_true_r.
           unfold handoff_allowed. rewrite Hcur.
           apply find_some in Ef. destruct Ef as [Hin _].
           apply existsb_exists. exists h. split; [exact Hin|apply String.eqb_refl].
        -- cbn [p_handoff]. intros tgt' E. injection E as <-.
           exact (lookup_registered h tgt El).
      * destruct (find (fun t => String.eqb (tool_name t) n) (tools cur))
          as [t|] eqn:Et; [|discriminate].
        eapply IH; [exact Hcur|exact Hp| |exact Hh].
        cbn [p_items]. unfold audit_items in *. rewrite forallb_app, Ha.
        cbn [forallb item_allowed andb]. rewrite andb_true_r.
        unfold tool_allowed. rewrite Hcur.
        apply find_some in Et. destruct Et as [Hin E].
        apply existsb_exists. exists t. split; [exact Hin|exact E].
Qed.

Lemma run_loop_audit : forall run_sub mt input turns cur generated s last items,
  lookup_agent (name cur) = Some cur ->
  audit_items generated = true ->
  run_loop gen hosted run_sub mt input turns cur generated = RunOk s last items ->
  audit_items items = true.
Proof.
  intros run_sub mt input turns.
  induction turns as [|t IH]; intros cur generated s last items Hcur Hg H;
    [discriminate|].
  rewrite run_loop_unfold in H.
  destruct (gen (name cur) (input ++ generated)) as [acts|m]; [|discriminate].
  destruct (process_actions hosted run_sub cur acts empty_processed)
    as [e|p] eqn:Ep; [discriminate|].
  assert (H0 : forall tgt, p_handoff empty_processed = Some tgt ->
                           lookup_agent (name tgt) = Some tgt)
    by (intros tgt E; discriminate E).
  destruct (process_actions_audit run_sub cur _ empty_processed p Hcur Ep eq_refl H0)
    as [Hi Hh].
  assert (Hgp : audit_items (generated ++ p_items p) = true)
    by (unfold audit_items in *; rewrite forallb_app, Hg, Hi; reflexivity).
  destruct (next_step p) eqn:En.
  - eapply IH; [apply Hh, next_step_handoff, En | exact Hgp | exact H].
  - eapply IH; [exact Hcur | exact Hgp | exact H].
  - injection H as _ _ <-. exact Hgp.
Qed.

Lemma run_agent_audit : forall depth mt A input s last items,
  In A agents ->
  run_agent gen hosted depth mt A input = RunOk s last items ->
  audit_items items = true.
Proof.
  intros [|d] mt A input s last items HA H; [discriminate|].
  cbn [run_agent] in H.
  eapply run_loop_audit; [apply lookup_in_agents, HA | | exact H]. reflexivity.
Qed.

Lemma process_actions_no_handoffs : forall run_sub cur acts acc p,
  handoffs cur = [] ->
  process_actions hosted run_sub cur acts acc = inr p ->
  p_handoff p = p_handoff acc /\
  handoff_events (p_items p) = handoff_events (p_items acc).
Proof.
  intros run_sub cur acts.
  induction acts as [|a acts IH]; intros acc p Hh Hp.
  - injection Hp as <-. auto.
  - destruct a as [s|n arg]; cbn [process_actions] in Hp.
    + destruct (IH _ _ Hh Hp) as [E1 E2]. cbn [p_handoff p_items] in E1, E2.
      split; [exact E1|]. rewrite E2. unfold handoff_events.
      rewrite flat_map_app. cbn. apply app_nil_r.
    + rewrite Hh in Hp. cbn [find] in Hp.
      destruct (find (fun t => String.eqb (tool_name t) n) (tools cur))
        as [t|]; [|discriminate].
      destruct (IH _ _ Hh Hp) as [E1 E2]. cbn [p_handoff p_items] in E1, E2.
      split; [exact E1|]. rewrite E2. unfold handoff_events.
      rewrite flat_map_app. cbn. apply app_nil_r.
Qed.

(** An agent without hand-off targets keeps control until the run ends. *)
Lemma run_loop_no_handoffs : forall run_sub mt input turns cur generated s last items,
  handoffs cur = [] ->
  run_loop gen hosted run_sub mt input turns cur generated = RunOk s last items ->
  last = name cur /\ handoff_events items = handoff_events generated.
Proof.
  intros run_sub mt input turns.
  induction turns as [|t IH]; intros cur generated s last items Hh H;
    [discriminate|].
  rewrite run_loop_unfold in H.
  destruct (gen (name cur) (input ++ generated)) as [acts|m]; [|discriminate].
  destruct (process_actions hosted run_sub cur acts empty_processed)
    as [e|p] eqn:Ep; [discriminate|].
  destruct (process_actions_no_handoffs _ _ _ _ _ Hh Ep) as [E1 E2].
  cbn [p_handoff p_items empty_processed handoff_events flat_map] in E1, E2.
  assert (Hev : handoff_events (generated ++ p_items p) = handoff_events generated)
    by (unfold handoff_events in *; rewrite flat_map_app, E2, app_nil_r; reflexivity).
  destruct (next_step p) eqn:En.
  - apply next_step_handoff in En. congruence.
  - destruct (IH _ _ _ _ _ Hh H) as [-> E]. rewrite E. auto.
  - injection H as _ <- <-. auto.
Qed.

End RunInvariants.

Section Congruence.

(** Two runs whose generation capability and hosted tools answer alike. *)
Variables gen1 gen2 : string -> list Item -> ModelResponse.
Variables hosted1 hosted2 : Tool -> string -> string.
Hypothesis Hgen : forall a c, gen1 a c = gen2 a c.
Hypothesis Hhost : forall t q, hosted1 t q = hosted2 t q.

Lemma execute_ext : forall rs1 rs2 t arg,
  (forall a x, rs1 a x = rs2 a x) ->
  execute hosted1 rs1 t arg = execute hosted2 rs2 t arg.
Proof.
  intros rs1 rs2 t arg Hrs. destruct t as [ids n b|sz|tn td an]; cbn [execute];
    [apply Hhost|apply Hhost|].
  destruct (lookup_agent an); [rewrite Hrs|]; reflexivity.
Qed.

Lemma process_actions_ext : forall rs1 rs2 cur acts acc,
  (forall a x, rs1 a x = rs2 a x) ->
  process_actions hosted1 rs1 cur acts acc = process_actions hosted2 rs2 cur acts acc.
Proof.
  intros rs1 rs2 cur acts.
  induction acts as [|a acts IH]; intros acc Hrs; [reflexivity|].
  destruct a as [s|n arg]; cbn [process_actions]; [apply IH, Hrs|].
  destruct (find (fun h => String.eqb (transfer_name h) n) (handoffs cur)).
  - destruct (p_handoff acc); [apply IH, Hrs|].
    destruct (lookup_agent s); [apply IH, Hrs|reflexivity].
  - destruct (find (fun t => String.eqb (tool_name t) n) (tools cur)) as [t|];
      [|reflexivity].
    cbv zeta. rewrite (execute_ext rs1 rs2 t arg Hrs). apply IH, Hrs.
Qed.

Lemma run_loop_ext : forall rs1 rs2 mt input turns cur generated,
  (forall a x, rs1 a x = rs2 a x) ->
  run_loop gen1 hosted1 rs1 mt input turns cur generated =
  run_loop gen2 hosted2 rs2 mt input turns cur generated.
Proof.
  intros rs1 rs2 mt input turns.
  induction turns as [|t IH]; intros cur generated Hrs; [reflexivity|].
  rewrite !run_loop_unfold, Hgen.
  destruct (gen2 (name cur) (input ++ generated)) as [acts|m]; [|reflexivity].
  rewrite (process_actions_ext rs1 rs2 _ _ _ Hrs).
  destruct (process_actions hosted2 rs2 cur acts empty_processed) as [e|p];
    [reflexivity|].
  destruct (next_step p); [apply IH, Hrs|apply IH, Hrs|reflexivity].
Qed.

Lemma run_agent_ext : forall depth mt A input,
  run_agent gen1 hosted1 depth mt A input = run_agent gen2 hosted2 depth mt A input.
Proof.
  induction depth as [|d IH]; intros mt A input; [reflexivity|].
  cbn [run_agent]. apply run_loop_ext. intros a x. apply IH.
Qed.

End Congruence.



Lemma in_handoff_events : forall items s d,
  In (s, d) (handoff_events items) -> In (IHandoff s d) items.
Proof.
  intros items s d H. unfold handoff_events in H. apply in_flat_map in H.
  destruct H as [i [Hi Hin]].
  destruct i; cbn in Hin; try contradiction.
  destruct Hin as [E|[]]. injection E as -> ->. exact Hi.
Qed.

Lemma audit_items_in : forall items i,
  audit_items items = true -> In i items -> item_allowed i = true.
Proof.
  intros items i H Hin. unfold audit_items in H. rewrite forallb_forall in H.
  apply H, Hin.
Qed.

(* ------------------------------------------------------------------ *)
Lemma string_app_nil_r : forall s : string, (s ++ "")%string = s.
Proof. induction s as [|ch s IH]; [reflexivity|]. cbn. rewrite IH. reflexivity. Qed.

(** ** Facts of the configuration *)

Open Scope list_scope.

Ltac agent_cases H :=
  destruct H as [<-|[<-|[<-|[<-|[<-|[]]]]]].

Lemma lookup_some_in : forall h A, lookup_agent h = Some A -> In A agents /\ name A = h.
Proof.
  intros h A H. apply find_some in H. destruct H as [Hin E].
  split; [exact Hin|]. apply String.eqb_eq, E.
Qed.

Lemma config_handoffs_resolve : forall A h,
  In A agents -> In h (handoffs A) -> exists B, lookup_agent h = Some B.
Proof.
  intros A h HA Hh. agent_cases HA; cbn in Hh;
    repeat destruct Hh as [<-|Hh]; try contradiction; eexists; reflexivity.
Qed.

Lemma config_handoffs_descend : forall A h,
  In A agents -> In h (handoffs A) -> handoff_rank h < handoff_rank (name A).
Proof.
  intros A h HA Hh. agent_cases HA; cbn in Hh;
    repeat destruct Hh as [<-|Hh]; try contradiction; cbv; lia.
Qed.

Lemma config_agent_tools_target_specialists : forall A tn td an a,
  In A agents -> In (AgentAsTool tn td an) (tools A) -> lookup_agent an = Some a ->
  In a specialists.
Proof.
  intros A tn td an a HA Hin Hl. agent_cases HA; cbn in Hin;
    repeat destruct Hin as [E|Hin]; try discriminate; try contradiction;
    injection E as <- <- <-; injection Hl as <-; cbn; tauto.
Qed.

Lemma config_specialists_no_agent_tools : forall A tn td an,
  In A specialists -> ~ In (AgentAsTool tn td an) (tools A).
Proof.
  intros A tn td an HA Hin.
  destruct HA as [<-|[<-|[<-|[<-|[]]]]]; cbn in Hin;
    repeat destruct Hin as [E|Hin]; try discriminate; contradiction.
Qed.

Lemma config_specialists_handoffs : forall A h tgt,
  In A specialists -> In h (handoffs A) -> lookup_agent h = Some tgt ->
  In tgt specialists.
Proof.
  intros A h tgt HA Hh Hl.
  destruct HA as [<-|[<-|[<-|[<-|[]]]]]; cbn in Hh;
    repeat destruct Hh as [<-|Hh]; try contradiction;
    injection Hl as <-; cbn; tauto.
Qed.

(** Where the hand-off chosen by a response comes from. *)
Lemma process_actions_handoff_source : forall hosted rs cur acts acc p tgt,
  process_actions hosted rs cur acts acc = inr p ->
  p_handoff p = Some tgt ->
  p_handoff acc = Some tgt \/
  exists h, In h (handoffs cur) /\ lookup_agent h = Some tgt.
Proof.
  intros hosted rs cur acts.
  induction acts as [|a acts IH]; intros acc p tgt Hp Ht.
  - injection Hp as <-. left. exact Ht.
  - destruct a as [s|n arg]; cbn [process_actions] in Hp; [exact (IH _ _ _ Hp Ht)|].
    destruct (find (fun h => String.eqb (transfer_name h) n) (handoffs cur))
      as [h|] eqn:Ef.
    + destruct (p_handoff acc) as [x|] eqn:Eh; [rewrite <- Eh; exact (IH _ _ _ Hp Ht)|].
      destruct (lookup_agent h) as [b|] eqn:El; [|discriminate].
      destruct (IH _ _ _ Hp Ht) as [E|E]; [|right; exact E].
      cbn [p_handoff] in E. injection E as ->. right. exists h.
      split; [apply find_some in Ef; apply Ef|exact El].
    + destruct (find (fun t => String.eqb (tool_name t) n) (tools cur));
        [|discriminate].
      exact (IH _ _ _ Hp Ht).
Qed.

(** A response records one hand-off event exactly when it hands off. *)
Lemma process_actions_handoff_count : forall hosted rs cur acts acc p,
  process_actions hosted rs cur acts acc = inr p ->
  List.length (handoff_events (p_items p)) + hcount (p_handoff acc) =
  List.length (handoff_events (p_items acc)) + hcount (p_handoff p).
Proof.
  intros hosted rs cur acts.
  induction acts as [|a acts IH]; intros acc p Hp.
  - injection Hp as <-. reflexivity.
  - destruct a as [s|n arg]; cbn [process_actions] in Hp.
    + pose proof (IH _ _ Hp) as E. cbn [p_items p_handoff] in E.
      unfold handoff_events in *. rewrite flat_map_app, length_app in E.
      cbn [flat_map app List.length] in E. lia.
    + destruct (find (fun h => String.eqb (transfer_name h) n) (handoffs cur))
        as [h|].
      * destruct (p_handoff acc) as [x|] eqn:Eh.
        -- rewrite <- Eh. exact (IH _ _ Hp).
        -- destruct (lookup_agent h) as [b|]; [|discriminate].
           pose proof (IH _ _ Hp) as E. cbn [p_items p_handoff] in E.
           unfold handoff_events in *. rewrite flat_map_app, length_app in E.
           cbn [flat_map app List.length hcount] in E. cbn [hcount]. lia.
      * destruct (find (fun t => String.eqb (tool_name t) n) (tools cur));
          [|discriminate].
        pose proof (IH _ _ Hp) as E. cbn [p_items p_handoff] in E.
        unfold handoff_events in *. rewrite flat_map_app, length_app in E.
        cbn [flat_map app List.length] in E. lia.
Qed.

Lemma next_step_not_handoff : forall p,
  (forall tgt, next_step p <> NextHandoff tgt) -> p_handoff p = None.
Proof.
  intros p H. unfold next_step in H. destruct (p_handoff p) as [x|]; [|reflexivity].
  exfalso. exact (H x eq_refl).
Qed.

Section RunLoopFacts.

Variable gen : string -> list Item -> ModelResponse.
Variable hosted : Tool -> string -> string.

Lemma run_loop_handoff_descent : forall rs mt input turns cur generated s last items,
  In cur agents ->
  run_loop gen hosted rs mt input turns cur generated = RunOk s last items ->
  List.length (handoff_events items) + handoff_rank last <=
  List.length (handoff_events generated) + handoff_rank (name cur).
Proof.
  intros rs mt input turns.
  induction turns as [|t IH]; intros cur generated s last items Hcur H;
    [discriminate|].
  rewrite run_loop_unfold in H.
  destruct (gen (name cur) (input ++ generated)) as [acts|m]; [|discriminate].
  destruct (process_actions hosted rs cur acts empty_processed)
    as [e|p] eqn:Ep; [discriminate|].
  pose proof (process_actions_handoff_count _ _ _ _ _ _ Ep) as Hc.
  cbn [p_handoff empty_processed hcount p_items handoff_events flat_map
       List.length] in Hc.
  assert (Hl : forall x, List.length (handoff_events (generated ++ x)) =
                         List.length (handoff_events generated) +
                         List.length (handoff_events x))
    by (intros x; unfold handoff_events; rewrite flat_map_app, length_app; reflexivity).
  destruct (next_step p) as [tgt| |o] eqn:En.
  - apply next_step_handoff in En.
    destruct (process_actions_handoff_source _ _ _ _ _ _ _ Ep En) as [E|[h [Hh Hlk]]];
      [discriminate|].
    destruct (lookup_some_in _ _ Hlk) as [Htgt Hname].
    pose proof (config_handoffs_descend cur h Hcur Hh) as Hr.
    pose proof (IH _ _ _ _ _ Htgt H) as Hi. rewrite Hl in Hi.
    rewrite En in Hc. cbn [hcount] in Hc. rewrite Hname in Hi. lia.
  - assert (Hn : p_handoff p = None)
      by (apply next_step_not_handoff; rewrite En; discriminate).
    pose proof (IH _ _ _ _ _ Hcur H) as Hi. rewrite Hl in Hi.
    rewrite Hn in Hc. cbn [hcount] in Hc. lia.
  - assert (Hn : p_handoff p = None)
      by (apply next_step_not_handoff; rewrite En; discriminate).
    injection H as _ <- <-. rewrite Hl.
    rewrite Hn in Hc. cbn [hcount] in Hc. lia.
Qed.

Lemma process_actions_error : forall rs cur acts acc e,
  In cur agents ->
  process_actions hosted rs cur acts acc = inl e ->
  exists m, e = ModelBehaviorError m.
Proof.
  intros rs cur acts.
  induction acts as [|a acts IH]; intros acc e Hcur Hp; [discriminate|].
  destruct a as [s|n arg]; cbn [process_actions] in Hp; [exact (IH _ _ Hcur Hp)|].
  destruct (find (fun h => String.eqb (transfer_name h) n) (handoffs cur))
    as [h|] eqn:Ef.
  - destruct (p_handoff acc); [exact (IH _ _ Hcur Hp)|].
    destruct (lookup_agent h) as [b|] eqn:El; [exact (IH _ _ Hcur Hp)|].
    apply find_some in Ef. destruct Ef as [Hh _].
    destruct (config_handoffs_resolve cur h Hcur Hh) as [B HB]. congruence.
  - destruct (find (fun t => String.eqb (tool_name t) n) (tools cur));
      [exact (IH _ _ Hcur Hp)|].
    injection Hp as <-. eexists; reflexivity.
Qed.

Lemma run_loop_error : forall rs mt input turns cur generated e,
  In cur agents ->
  run_loop gen hosted rs mt input turns cur generated = RunErr e ->
  e = MaxTurnsExceeded mt \/ (exists m, e = ModelBehaviorError m) \/
  (exists m, e = APIError m).
Proof.
  intros rs mt input turns.
  induction turns as [|t IH]; intros cur generated e Hcur H.
  - injection H as <-. left. reflexivity.
  - rewrite run_loop_unfold in H.
    destruct (gen (name cur) (input ++ generated)) as [acts|m];
      [|injection H as <-; right; right; exists m; reflexivity].
    destruct (process_actions hosted rs cur acts empty_processed) as [e'|p] eqn:Ep.
    + injection H as <-. right. left. exact (process_actions_error _ _ _ _ _ Hcur Ep).
    + destruct (next_step p) as [tgt| |o] eqn:En; [|exact (IH _ _ _ Hcur H)|discriminate].
      apply next_step_handoff in En.
      destruct (process_actions_handoff_source _ _ _ _ _ _ _ Ep En) as [E|[h [_ Hlk]]];
        [discriminate|].
      exact (IH _ _ _ (proj1 (lookup_some_in _ _ Hlk)) H).
Qed.

(** A response made of text messages only. *)
Lemma process_actions_texts : forall rs cur ts acc,
  process_actions hosted rs cur (map AText ts) acc =
  inr (mkProcessed (p_items acc ++ map (IMessage (name cur)) ts) (p_handoff acc)
         (p_tools_ran acc)
         (match ts with [] => p_last_text acc | _ => Some (last ts EmptyString) end)).
Proof.
  intros rs cur ts. induction ts as [|x ts IH]; intros acc.
  - cbn. rewrite app_nil_r. destruct acc; reflexivity.
  - cbn [map process_actions]. rewrite IH. cbn [p_items p_handoff p_tools_ran].
    rewrite <- app_assoc. destruct ts; reflexivity.
Qed.

(** A response of one or more texts and nothing else ends the run, with
    the last text as final output. *)
Lemma run_loop_texts_final : forall rs mt input t cur generated ts,
  gen (name cur) (input ++ generated) = Responded (map AText ts) ->
  ts <> [] ->
  run_loop gen hosted rs mt input (S t) cur generated =
  RunOk (last ts EmptyString) (name cur) (generated ++ map (IMessage (name cur)) ts).
Proof.
  intros rs mt input t cur generated ts Hg Hts.
  rewrite run_loop_unfold, Hg, process_actions_texts.
  destruct ts as [|x ts]; [contradiction|]. reflexivity.
Qed.

(** A response of hosted tool calls only adds those calls and keeps the
    rest of the processing state. *)
Lemma process_actions_hosted_only : forall rs cur acts acc,
  forallb (hosted_call cur) acts = true ->
  exists items, process_actions hosted rs cur acts acc =
    inr (mkProcessed (p_items acc ++ items) (p_handoff acc) (p_tools_ran acc)
           (p_last_text acc)).
Proof.
  intros rs cur acts. induction acts as [|a acts IH]; intros acc H.
  - exists []. cbn. rewrite app_nil_r. destruct acc; reflexivity.
  - cbn [forallb] in H. apply andb_prop in H. destruct H as [Ha H].
    destruct a as [x|n arg]; [discriminate|].
    unfold hosted_call in Ha. cbn [process_actions].
    destruct (find (fun h => String.eqb (transfer_name h) n) (handoffs cur));
      [discriminate|].
    destruct (find (fun t => String.eqb (tool_name t) n) (tools cur)) as [t|];
      [|discriminate].
    destruct (IH (mkProcessed (p_items acc ++ [IToolCall (name cur) n arg
                                                 (execute hosted rs t arg)])
                    (p_handoff acc)
                    (p_tools_ran acc || match t with AgentAsTool _ _ _ => true
                                        | _ => false end)
                    (p_last_text acc)) H) as [items E].
    exists ([IToolCall (name cur) n arg (execute hosted rs t arg)] ++ items)%list.
    cbv zeta. rewrite E. cbn [p_items p_handoff p_tools_ran p_last_text].
    rewrite app_assoc.
    destruct t as [ids k b|sz|tn td an]; [| |discriminate];
      rewrite orb_false_r; reflexivity.
Qed.

Lemma process_actions_handoff_keep : forall rs cur acts acc p x,
  process_actions hosted rs cur acts acc = inr p ->
  p_handoff acc = Some x -> p_handoff p = Some x.
Proof.
  intros rs cur acts. induction acts as [|a acts IH]; intros acc p x Hp Hx.
  - injection Hp as <-. exact Hx.
  - destruct a as [s|n arg]; cbn [process_actions] in Hp; [exact (IH _ _ _ Hp Hx)|].
    destruct (find (fun h => String.eqb (transfer_name h) n) (handoffs cur)).
    + rewrite Hx in Hp. exact (IH _ _ _ Hp Hx).
    + destruct (find (fun t => String.eqb (tool_name t) n) (tools cur));
        [exact (IH _ _ _ Hp Hx)|discriminate].
Qed.

Lemma handoff_events_app : forall l1 l2,
  handoff_events (l1 ++ l2) = handoff_events l1 ++ handoff_events l2.
Proof. intros l1 l2. unfold handoff_events. apply flat_map_app. Qed.

(** The hand-off event a response records is the one it takes. *)
Lemma process_actions_handoff_events : forall rs cur acts acc p,
  process_actions hosted rs cur acts acc = inr p ->
  handoff_events (p_items p) =
  handoff_events (p_items acc) ++
  match p_handoff acc, p_handoff p with
  | None, Some tgt => [(name cur, name tgt)]
  | _, _ => []
  end.
Proof.
  intros rs cur acts. induction acts as [|a acts IH]; intros acc p Hp.
  - injection Hp as <-. destruct (p_handoff acc); symmetry; apply app_nil_r.
  - destruct a as [s|n arg]; cbn [process_actions] in Hp.
    + rewrite (IH _ _ Hp). cbn [p_items p_handoff].
      rewrite handoff_events_app. cbn. rewrite app_nil_r. reflexivity.
    + destruct (find (fun h => String.eqb (transfer_name h) n) (handoffs cur))
        as [h|] eqn:Ef.
      * destruct (p_handoff acc) as [x|] eqn:Eh; [rewrite (IH _ _ Hp), Eh; reflexivity|].
        destruct (lookup_agent h) as [b|] eqn:El; [|discriminate].
        rewrite (IH _ _ Hp). cbn [p_items p_handoff].
        rewrite (process_actions_handoff_keep _ _ _ _ _ b Hp eq_refl).
        rewrite handoff_events_app, <- app_assoc. cbn.
        rewrite (proj2 (lookup_some_in _ _ El)). reflexivity.
      * destruct (find (fun t => String.eqb (tool_name t) n) (tools cur));
          [|discriminate].
        rewrite (IH _ _ Hp). cbn [p_items p_handoff].
        rewrite handoff_events_app. cbn. rewrite app_nil_r. reflexivity.
Qed.

(** The hand-off events a run adds form a chain from the agent it starts
    with to the agent it ends with. *)
Lemma run_loop_chain : forall rs mt input turns cur generated s last items,
  run_loop gen hosted rs mt input turns cur generated = RunOk s last items ->
  exists evs, handoff_events items = handoff_events generated ++ evs /\
              handoff_chain (name cur) evs last.
Proof.
  intros rs mt input turns.
  induction turns as [|t IH]; intros cur generated s last items H; [discriminate|].
  rewrite run_loop_unfold in H.
  destruct (gen (name cur) (input ++ generated)) as [acts|m]; [|discriminate].
  destruct (process_actions hosted rs cur acts empty_processed)
    as [e|p] eqn:Ep; [discriminate|].
  pose proof (process_actions_handoff_events _ _ _ _ _ Ep) as Hev.
  cbn [p_items p_handoff empty_processed handoff_events flat_map app] in Hev.
  destruct (next_step p) as [tgt| |o] eqn:En.
  - apply next_step_handoff in En. rewrite En in Hev.
    destruct (IH _ _ _ _ _ H) as [evs [E Hc]].
    exists ((name cur, name tgt) :: evs). split; [|split; [reflexivity|exact Hc]].
    rewrite E, handoff_events_app. fold (handoff_events (p_items p)).
    rewrite Hev, <- app_assoc. reflexivity.
  - assert (Hn : p_handoff p = None)
      by (apply next_step_not_handoff; rewrite En; discriminate).
    rewrite Hn in Hev. destruct (IH _ _ _ _ _ H) as [evs [E Hc]].
    exists evs. split; [|exact Hc].
    rewrite E, handoff_events_app. fold (handoff_events (p_items p)).
    rewrite Hev, app_nil_r. reflexivity.
  - assert (Hn : p_handoff p = None)
      by (apply next_step_not_handoff; rewrite En; discriminate).
    rewrite Hn in Hev. injection H as _ <- <-.
    exists []. split; [|reflexivity].
    rewrite handoff_events_app. fold (handoff_events (p_items p)).
    rewrite Hev. reflexivity.
Qed.

(** Runs agree when their nested runners agree on every agent that an
    agent tool of a reachable agent names. *)
Section ExtOn.

Variable P : Agent -> Prop.
Variables rs1 rs2 : Agent -> string -> RunResult.
Hypothesis P_handoff : forall A h tgt,
  P A -> In h (handoffs A) -> lookup_agent h = Some tgt -> P tgt.
Hypothesis P_tools : forall A tn td an a x,
  P A -> In (AgentAsTool tn td an) (tools A) -> lookup_agent an = Some a ->
  rs1 a x = rs2 a x.

Lemma process_actions_ext_on : forall cur acts acc,
  P cur ->
  process_actions hosted rs1 cur acts acc = process_actions hosted rs2 cur acts acc.
Proof.
  intros cur acts.
  induction acts as [|a acts IH]; intros acc Hcur; [reflexivity|].
  destruct a as [s|n arg]; cbn [process_actions]; [apply IH, Hcur|].
  destruct (find (fun h => String.eqb (transfer_name h) n) (handoffs cur)).
  - destruct (p_handoff acc); [apply IH, Hcur|].
    destruct (lookup_agent s); [apply IH, Hcur|reflexivity].
  - destruct (find (fun t => String.eqb (tool_name t) n) (tools cur)) as [t|] eqn:Et;
      [|reflexivity].
    apply find_some in Et. destruct Et as [Hin _].
    assert (Hx : execute hosted rs1 t arg = execute hosted rs2 t arg).
    { destruct t as [ids k b|sz|tn td an]; cbn [execute]; [reflexivity|reflexivity|].
      destruct (lookup_agent an) as [a|] eqn:El; [|reflexivity].
      rewrite (P_tools cur tn td an a arg Hcur Hin El). reflexivity. }
    cbv zeta. rewrite Hx. apply IH, Hcur.
Qed.

Lemma run_loop_ext_on : forall mt input turns cur generated,
  P cur ->
  run_loop gen hosted rs1 mt input turns cur generated =
  run_loop gen hosted rs2 mt input turns cur generated.
Proof.
  intros mt input turns.
  induction turns as [|t IH]; intros cur generated Hcur; [reflexivity|].
  rewrite !run_loop_unfold.
  destruct (gen (name cur) (input ++ generated)) as [acts|m]; [|reflexivity].
  rewrite (process_actions_ext_on _ _ _ Hcur).
  destruct (process_actions hosted rs2 cur acts empty_processed) as [e|p] eqn:Ep;
    [reflexivity|].
  destruct (next_step p) as [tgt| |o] eqn:En; [|apply IH, Hcur|reflexivity].
  apply next_step_handoff in En.
  destruct (process_actions_handoff_source _ _ _ _ _ _ _ Ep En) as [E|[h [Hh Hlk]]];
    [discriminate|].
  apply IH. exact (P_handoff cur h tgt Hcur Hh Hlk).
Qed.

End ExtOn.

End RunLoopFacts.

(** A permitted hand-off goes down the chain triage, assumption, critic. *)
Lemma handoff_allowed_descends : forall src dst,
  handoff_allowed src dst = true -> handoff_rank dst < handoff_rank src.
Proof.
  intros src dst E. unfold handoff_allowed in E.
  destruct (lookup_agent src) as [A|] eqn:El; [|discriminate].
  destruct (lookup_some_in _ _ El) as [HA <-].
  apply existsb_exists in E. destruct E as [h [Hh Eh]].
  apply String.eqb_eq in Eh. subst h.
  exact (config_handoffs_descend A dst HA Hh).
Qed.

(** Along a chain of permitted hand-offs from [a], no source ranks above
    [a]. *)
Lemma handoff_chain_ranks : forall evs a last,
  handoff_chain a evs last ->
  (forall src dst, In (src, dst) evs -> handoff_allowed src dst = true) ->
  forall src dst, In (src, dst) evs -> handoff_rank src <= handoff_rank a.
Proof.
  induction evs as [|[x y] evs IH]; intros a last Hc Hal src dst Hin;
    [contradiction|].
  destruct Hc as [-> Hc].
  destruct Hin as [E|Hin]; [injection E as -> ->; lia|].
  pose proof (handoff_allowed_descends a y (Hal a y (or_introl eq_refl))).
  assert (handoff_rank src <= handoff_rank y); [|lia].
  refine (IH y last Hc _ src dst Hin).
  intros s d H'. apply Hal. right. exact H'.
Qed.

(** The fuel of [run_agent] is a device of this model: from 2 up it does
    not change the run of a question, since agent tools nest one level. *)
Lemma nesting_fuel_adequate : forall gen hosted d q,
  2 <= d ->
  run_agent gen hosted d DEFAULT_MAX_TURNS triage_agent [IUser q] =
  run_question gen hosted q.
Proof.
  intros gen hosted d q Hd.
  destruct d as [|[|k]]; [lia|lia|].
  unfold run_question, nesting_fuel. cbn [run_agent].
  apply (run_loop_ext_on gen hosted (fun A => In A agents)).
  - intros A h tgt _ _ Hl. exact (proj1 (lookup_some_in _ _ Hl)).
  - intros A tn td an a x HA Hin Hl.
    pose proof (config_agent_tools_target_specialists A tn td an a HA Hin Hl) as Hs.
    cbn [run_agent].
    apply (run_loop_ext_on gen hosted (fun B => In B specialists)).
    + intros B h tgt HB Hh Hl'. exact (config_specialists_handoffs B h tgt HB Hh Hl').
    + intros B tn' td' an' b y HB Hin'. exfalso.
      exact (config_specialists_no_agent_tools B tn' td' an' HB Hin').
    + exact Hs.
  - cbn. tauto.
Qed.

(* ================================================================== *)
(** * Claims *)


(** C1 (corrected). The assumption agent's only hand-off target is the
    critic agent, so every hand-off it makes in a run goes to the critic;
    but the hand-off is not enforced: when the model answers the
    assumption agent with a text and no hand-off, the run ends at once with
    that text as final output, with no retry and no failure. *)
Theorem assumption_handoff_not_enforced :
  (forall gen hosted depth mt A input s last items dst,
     In A agents ->
     run_agent gen hosted depth mt A input = RunOk s last items ->
     In ("assumption_agent", dst) (handoff_events items) ->
     dst = "critic_agent") /\
  (forall gen hosted run_sub mt input t generated s,
     gen "assumption_agent" (input ++ generated) = Responded [AText s] ->
     run_loop gen hosted run_sub mt input (S t) assumption_agent generated =
     RunOk s "assumption_agent" (generated ++ [IMessage "assumption_agent" s])).
Proof.
  split.
  - intros gen hosted depth mt A input s last items dst HA Hrun Hev.
    pose proof (audit_items_in _ _ (run_agent_audit gen hosted depth mt A input s last
                                     items HA Hrun) (in_handoff_events _ _ _ Hev)) as E.
    cbn [item_allowed] in E. unfold handoff_allowed in E. cbn in E.
    rewrite orb_false_r in E. apply String.eqb_eq in E. exact E.
  - intros gen hosted run_sub mt input t generated s Hg.
    exact (run_loop_text_final gen hosted run_sub mt input t assumption_agent
             generated s Hg).
Qed.

(** C1 counterexample: triage routes an assumption-based question to the
    assumption agent, which answers without handing off; the run ends
    normally with that answer and no hand-off to the critic. *)
Lemma assumption_run_without_critic :
  exists items,
    run_question Scenarios.gen_no_review Scenarios.hosted0
      "Determine the EV/Sales ratio for 2024." =
      RunOk "EV/Sales is 2.1" "assumption_agent" items /\
    handoff_events items = [("triage_agent", "assumption_agent")].
Proof. eexists. split; vm_compute; reflexivity. Defined.

Lemma assumption_handoff_not_enforced_witness :
  run_loop Scenarios.gen_no_review Scenarios.hosted0 (fun _ _ => RunErr NestingTooDeep)
    10 [IUser "Determine the EV/Sales ratio for 2024."] 9 assumption_agent
    [IToolCall "triage_agent" "file_search" "EV 2024" "results for EV 2024";
     IHandoff "triage_agent" "assumption_agent"] =
  RunOk "EV/Sales is 2.1" "assumption_agent"
    [IToolCall "triage_agent" "file_search" "EV 2024" "results for EV 2024";
     IHandoff "triage_agent" "assumption_agent";
     IMessage "assumption_agent" "EV/Sales is 2.1"].
Proof.
  apply (proj2 assumption_handoff_not_enforced). reflexivity.
Defined.




(** C3 (corrected). The basic and conceptual agents have no hand-off
    targets: in every run of a question in which the triage agent hands
    off to one of them (whether the hand-off comes alone, with searches in
    the same response, or after consult calls), that triage-to-specialist
    hand-off is the only hand-off event of the run, and the specialist
    keeps control until the run ends. *)
Theorem basic_conceptual_single_handoff :
  forall gen hosted q X s last items,
    X = "basic_agent" \/ X = "conceptual_agent" ->
    run_question gen hosted q = RunOk s last items ->
    In ("triage_agent", X) (handoff_events items) ->
    last = X /\ handoff_events items = [("triage_agent", X)].
Proof.
  intros gen hosted q X s last items HX H Hin.
  assert (Hal : forall src dst, In (src, dst) (handoff_events items) ->
                                handoff_allowed src dst = true).
  { intros src dst Hsd.
    exact (audit_items_in _ _
             (run_agent_audit gen hosted _ _ triage_agent _ s last items
                (ltac:(cbn; tauto)) H)
             (in_handoff_events _ _ _ Hsd)). }
  unfold run_question, nesting_fuel in H. cbn [run_agent] in H.
  destruct (run_loop_chain gen hosted _ _ _ _ _ _ s last items H) as [evs [E Hc]].
  cbn [handoff_events flat_map app] in E. rewrite E in Hin, Hal |- *.
  destruct evs as [|[x y] evs]; [contradiction|].
  destruct Hc as [Hx Hc]. cbn [name triage_agent] in Hx. subst x.
  assert (Hno : forall d, handoff_allowed X d = false)
    by (intros d; destruct HX as [-> | ->]; reflexivity).
  destruct Hin as [Exy|Hin].
  - injection Exy as ->.
    destruct evs as [|[x' y'] evs].
    + split; [exact (eq_sym Hc)|reflexivity].
    + destruct Hc as [-> _].
      pose proof (Hal X y' (or_intror (or_introl eq_refl))) as Hb.
      rewrite Hno in Hb. discriminate Hb.
  - pose proof (handoff_allowed_descends _ _ (Hal "triage_agent" y (or_introl eq_refl))).
    pose proof (handoff_chain_ranks evs y last Hc
                  (fun src dst H' => Hal src dst (or_intror H'))
                  "triage_agent" X Hin).
    cbv [handoff_rank String.eqb] in *. lia.
Qed.

(** C3 counterexample: a question routed to the basic agent leaves one
    hand-off event in the run. *)
Lemma basic_run_has_handoff :
  exists s items,
    run_question Scenarios.gen_basic Scenarios.hosted0
      "What is Gross Profit in the year ending 2024?" = RunOk s "basic_agent" items /\
    handoff_events items = [("triage_agent", "basic_agent")].
Proof. do 2 eexists. split; vm_compute; reflexivity. Defined.

(** The triage agent searches and hands off in the same response. *)
Lemma basic_conceptual_single_handoff_witness :
  "basic_agent" = "basic_agent" /\
  handoff_events
    [IToolCall "triage_agent" "file_search" "gross profit 2024"
       "results for gross profit 2024";
     IHandoff "triage_agent" "basic_agent";
     IMessage "basic_agent" "Gross profit is 100"] =
  [("triage_agent", "basic_agent")].
Proof.
  apply (basic_conceptual_single_handoff Scenarios.gen_route_a Scenarios.hosted0
           "What is Gross Profit in the year ending 2024?" "basic_agent"
           "Gross profit is 100").
  - left. reflexivity.
  - vm_compute. reflexivity.
  - cbn. tauto.
Defined.

(** C4 (corrected). The triage agent is only asked by its prompt not to
    answer; nothing checks its output: at any point of a run (first
    response, after searches, after consult calls), when the model answers
    the triage agent with text messages and no tool call or hand-off, the
    run ends at once with the triage agent's last text as final output. *)
Theorem triage_text_is_final_output :
  forall gen hosted run_sub mt input t generated ts,
    gen "triage_agent" (input ++ generated) = Responded (map AText ts) ->
    ts <> [] ->
    run_loop gen hosted run_sub mt input (S t) triage_agent generated =
    RunOk (last ts "") "triage_agent"
      (generated ++ map (IMessage "triage_agent") ts).
Proof.
  intros gen hosted run_sub mt input t generated ts Hg Hts.
  exact (run_loop_texts_final gen hosted run_sub mt input t triage_agent generated ts
           Hg Hts).
Qed.

(** C4 counterexample: the triage agent's own answer is accepted as the
    result of the run. *)
Lemma triage_answer_accepted :
  run_question Scenarios.gen_triage_answers Scenarios.hosted0
    "What is Gross Profit in the year ending 2024?" =
  RunOk "Gross profit in 2024 is 100" "triage_agent"
    [IMessage "triage_agent" "Gross profit in 2024 is 100"].
Proof. vm_compute. reflexivity. Defined.

(** The triage agent answers after consulting the basic specialist. *)
Lemma triage_text_is_final_output_witness :
  run_loop Scenarios.gen_consult Scenarios.hosted0
    (fun a arg => run_agent Scenarios.gen_consult Scenarios.hosted0 2
                    DEFAULT_MAX_TURNS a [IUser arg])
    10 [IUser "Gross profit?"] 9 triage_agent
    [IToolCall "triage_agent" "consult_basic_specialist" "Gross profit 2024" "100"] =
  RunOk "Gross profit is 100" "triage_agent"
    ([IToolCall "triage_agent" "consult_basic_specialist" "Gross profit 2024" "100"] ++
     [IMessage "triage_agent" "Gross profit is 100"]).
Proof.
  apply (triage_text_is_final_output _ _ _ _ _ _ _ ["Gross profit is 100"]).
  - reflexivity.
  - discriminate.
Defined.

(** C5 (corrected). Document Search reads the vector store hard-coded in
    [file_search_tool], at most 5 hits; the store [main] creates and fills
    with the context file at batch start has a fresh id that the tool does
    not know, so it is never searched. *)
Theorem document_search_reads_fixed_store :
  forall matches st new_id context q,
    new_id <> "vs_68993210d6d481918d95319746f5d133" ->
    file_search matches (main_stores st new_id context) file_search_tool q =
    firstn 5 (store_search matches st "vs_68993210d6d481918d95319746f5d133" q).
Proof.
  intros matches st new_id context q Hid.
  unfold file_search, file_search_tool, main_stores, create_and_upload, store_search.
  cbn [flat_map]. rewrite app_nil_r.
  destruct (String.eqb "vs_68993210d6d481918d95319746f5d133" new_id) eqn:E.
  - apply String.eqb_eq in E. congruence.
  - reflexivity.
Qed.

(** C5 counterexample: the hit comes from the hard-coded store, not from
    the corpus registered at batch start. *)
Lemma document_search_outside_registered_corpus :
  file_search Scenarios.match_all
    (main_stores Scenarios.st0 "vs_batch" Scenarios.context_chunks)
    file_search_tool "gross profit" =
    [("Costco revenue 2023", "costco_10k.pdf")] /\
  ~ In ("Costco revenue 2023", "costco_10k.pdf")
      (main_stores Scenarios.st0 "vs_batch" Scenarios.context_chunks "vs_batch").
Proof.
  split; [vm_compute; reflexivity|].
  vm_compute. intros [H|[]]. discriminate H.
Defined.

Lemma document_search_reads_fixed_store_witness :
  file_search Scenarios.match_all
    (main_stores Scenarios.st0 "vs_batch" Scenarios.context_chunks)
    file_search_tool "gross profit" =
  firstn 5 (store_search Scenarios.match_all Scenarios.st0
              "vs_68993210d6d481918d95319746f5d133" "gross profit").
Proof. apply document_search_reads_fixed_store. discriminate. Defined.

(** C6 (corrected). No output shape is checked and nothing is retried:
    for every agent of the module, at any point of a run, when the model
    answers that agent with text messages and no tool call or hand-off,
    whatever the texts are, the run ends with that single model call and
    the last text is the run's final output. *)
Theorem any_text_output_accepted :
  forall gen hosted run_sub mt input t A generated ts,
    In A agents ->
    gen (name A) (input ++ generated) = Responded (map AText ts) ->
    ts <> [] ->
    run_loop gen hosted run_sub mt input (S t) A generated =
    RunOk (last ts "") (name A) (generated ++ map (IMessage (name A)) ts).
Proof.
  intros gen hosted run_sub mt input t A generated ts _ Hg Hts.
  exact (run_loop_texts_final gen hosted run_sub mt input t A generated ts Hg Hts).
Qed.

(** C6 counterexample: the bare answer "42" lacks the spec's output shape
    and is still the run's answer. *)
Lemma malformed_output_accepted :
  run_question Scenarios.gen_basic Scenarios.hosted0
    "What is Gross Profit in the year ending 2024?" =
  RunOk "42" "basic_agent"
    [IHandoff "triage_agent" "basic_agent"; IMessage "basic_agent" "42"] /\
  spec_output_shape "42" = false.
Proof. split; vm_compute; reflexivity. Defined.

(** The basic agent's bare "42" after the triage hand-off. *)
Lemma any_text_output_accepted_witness :
  run_loop Scenarios.gen_basic Scenarios.hosted0 (fun _ _ => RunErr NestingTooDeep)
    10 [IUser "What is Gross Profit in the year ending 2024?"] 8 basic_agent
    [IHandoff "triage_agent" "basic_agent"] =
  RunOk "42" "basic_agent"
    ([IHandoff "triage_agent" "basic_agent"] ++ [IMessage "basic_agent" "42"]).
Proof.
  apply (any_text_output_accepted _ _ _ _ _ _ basic_agent _ ["42"]).
  - cbn. tauto.
  - reflexivity.
  - discriminate.
Defined.

(** C7 (corrected). When the assumption agent answers and hands off to the
    critic, and the critic answers, the run's final output is the critic's
    own answer; the assumption agent's answer stays in the conversation
    the critic is given and is not part of the final output. *)
Theorem critic_output_is_final :
  forall gen hosted run_sub mt input t generated a arg c,
    gen "assumption_agent" (input ++ generated) =
      Responded [AText a; ACall "transfer_to_critic_agent" arg] ->
    gen "critic_agent"
      (input ++ generated ++ [IMessage "assumption_agent" a;
                              IHandoff "assumption_agent" "critic_agent"]) =
      Responded [AText c] ->
    run_loop gen hosted run_sub mt input (S (S t)) assumption_agent generated =
    RunOk c "critic_agent"
      (generated ++ [IMessage "assumption_agent" a;
                     IHandoff "assumption_agent" "critic_agent";
                     IMessage "critic_agent" c]).
Proof.
  intros gen hosted run_sub mt input t generated a arg c Ha Hc.
  rewrite run_loop_unfold. change (name assumption_agent) with "assumption_agent".
  rewrite Ha. cbn -[run_loop].
  rewrite (run_loop_text_final gen hosted run_sub mt input t critic_agent _ c Hc).
  rewrite <- app_assoc. reflexivity.
Qed.

(** C7 counterexample: the assumption agent's figure 2.1 is absent from
    the final answer, which is the critic's. *)
Lemma final_answer_is_critic_text :
  exists items,
    run_question Scenarios.gen_review Scenarios.hosted0
      "Determine the EV/Sales ratio for 2024." =
      RunOk "Critique: EV/Sales is 1.9" "critic_agent" items /\
    In (IMessage "assumption_agent" "EV/Sales is 2.1") items /\
    contains "Critique: EV/Sales is 1.9" "2.1" = false.
Proof.
  eexists. split; [vm_compute; reflexivity|].
  split; [vm_compute; auto|vm_compute; reflexivity].
Defined.

Lemma critic_output_is_final_witness :
  run_loop Scenarios.gen_review Scenarios.hosted0 (fun _ _ => RunErr NestingTooDeep)
    10 [IUser "Determine the EV/Sales ratio for 2024."] 9 assumption_agent
    [IHandoff "triage_agent" "assumption_agent"] =
  RunOk "Critique: EV/Sales is 1.9" "critic_agent"
    ([IHandoff "triage_agent" "assumption_agent"] ++
     [IMessage "assumption_agent" "EV/Sales is 2.1";
      IHandoff "assumption_agent" "critic_agent";
      IMessage "critic_agent" "Critique: EV/Sales is 1.9"]).
Proof. apply (critic_output_is_final _ _ _ _ _ 7 _ _ ""); reflexivity. Defined.

(** C8 (corrected). A run is determined by the question, the hosted
    tools' answers and the model's answers: with all three identical, two
    runs are identical (same route, same tool calls and queries, same
    output). With only the question and the tool answers fixed, the route
    and the queries are the model's choice: for any tool answers, any
    query and any of the three specialists, some model's answers make the
    run search with exactly that query and end with that specialist. *)
Theorem run_determined_by_generation :
  (forall gen1 gen2 hosted1 hosted2 q,
     (forall a c, gen1 a c = gen2 a c) ->
     (forall t x, hosted1 t x = hosted2 t x) ->
     run_question gen1 hosted1 q = run_question gen2 hosted2 q) /\
  (forall hosted q x X,
     In X (handoffs triage_agent) ->
     exists gen,
       tool_queries (result_items (run_question gen hosted q)) =
         [("file_search", x)] /\
       result_agent (run_question gen hosted q) = Some X).
Proof.
  split.
  - intros gen1 gen2 hosted1 hosted2 q Hg Hh. unfold run_question.
    apply run_agent_ext; assumption.
  - intros hosted q x X HX. exists (Scenarios.gen_pick x X).
    cbn in HX. destruct HX as [<-|[<-|[<-|[]]]]; split; vm_compute; reflexivity.
Qed.

(** C8 counterexample: same question, same tool answers, two generations:
    different search queries and different specialists. *)
Lemma same_tools_different_runs :
  tool_queries (result_items (run_question Scenarios.gen_route_a Scenarios.hosted0
                                "What is Gross Profit in the year ending 2024?")) =
    [("file_search", "gross profit 2024")] /\
  tool_queries (result_items (run_question Scenarios.gen_route_b Scenarios.hosted0
                                "What is Gross Profit in the year ending 2024?")) =
    [("file_search", "gross profit")] /\
  result_agent (run_question Scenarios.gen_route_a Scenarios.hosted0
                  "What is Gross Profit in the year ending 2024?") = Some "basic_agent" /\
  result_agent (run_question Scenarios.gen_route_b Scenarios.hosted0
                  "What is Gross Profit in the year ending 2024?") =
    Some "assumption_agent".
Proof. repeat split; vm_compute; reflexivity. Defined.

Lemma run_determined_by_generation_witness :
  exists gen,
    tool_queries (result_items (run_question gen Scenarios.hosted0 "What is EV/Sales?")) =
      [("file_search", "EV 2024")] /\
    result_agent (run_question gen Scenarios.hosted0 "What is EV/Sales?") =
      Some "conceptual_agent".
Proof.
  apply (proj2 run_determined_by_generation).
  cbn. tauto.
Defined.

(** C9 (confirmed). For a run that returns, [main] reports the critic's
    review as confirmed exactly when the lower-cased final output contains
    "critique" or "review", and reports no hand-off exactly when it
    contains neither. *)
Theorem handoff_report_by_substring :
  forall gen hosted q s last items,
    run_question gen hosted q = RunOk s last items ->
    (main_question gen hosted q = Some HandoffConfirmed <->
       contains (lower s) "critique" = true \/ contains (lower s) "review" = true) /\
    (main_question gen hosted q = Some NoHandoffDetected <->
       contains (lower s) "critique" = false /\ contains (lower s) "review" = false).
Proof.
  intros gen hosted q s last items H. unfold main_question. rewrite H.
  unfold handoff_report.
  destruct (contains (lower s) "critique"), (contains (lower s) "review");
    cbn; intuition congruence.
Qed.

(** A basic answer that mentions a review is reported as reviewed; a
    critic answer that mentions neither word is reported as no hand-off. *)
Lemma handoff_report_by_substring_witness :
  main_question Scenarios.gen_basic_review Scenarios.hosted0 "Gross profit?" =
    Some HandoffConfirmed /\
  main_question Scenarios.gen_critic_quiet Scenarios.hosted0 "EV/Sales?" =
    Some NoHandoffDetected.
Proof.
  split.
  - apply (handoff_report_by_substring Scenarios.gen_basic_review Scenarios.hosted0
             "Gross profit?" "Please Review: 42" "basic_agent"
             [IHandoff "triage_agent" "basic_agent";
              IMessage "basic_agent" "Please Review: 42"]);
      [vm_compute; reflexivity|right; vm_compute; reflexivity].
  - apply (handoff_report_by_substring Scenarios.gen_critic_quiet Scenarios.hosted0
             "EV/Sales?" "EV/Sales is 1.9" "critic_agent"
             [IHandoff "triage_agent" "assumption_agent";
              IMessage "assumption_agent" "EV/Sales is 2.1";
              IHandoff "assumption_agent" "critic_agent";
              IMessage "critic_agent" "EV/Sales is 1.9"]);
      [vm_compute; reflexivity|split; vm_compute; reflexivity].
Defined.

(** C10 (confirmed). The triage agent reaches each of the basic,
    assumption and conceptual agents both through a consult tool, after
    which control is back with the triage agent, and through a hand-off,
    after which control is with the specialist. *)
Theorem triage_consult_and_handoff :
  forall gen hosted run_sub mt input t generated,
    triage_paths gen hosted run_sub mt input t generated
      "consult_basic_specialist" basic_agent /\
    triage_paths gen hosted run_sub mt input t generated
      "consult_assumption_specialist" assumption_agent /\
    triage_paths gen hosted run_sub mt input t generated
      "consult_conceptual_specialist" conceptual_agent.
Proof.
  intros gen hosted run_sub mt input t generated.
  repeat split; cbn [tools handoffs triage_agent map tool_name In name];
    try tauto;
    intros arg Hg;
    rewrite run_loop_unfold; change (name triage_agent) with "triage_agent";
    rewrite Hg; reflexivity.
Qed.

Lemma triage_consult_and_handoff_witness :
  run_loop Scenarios.gen_consult Scenarios.hosted0
    (fun a arg => run_agent Scenarios.gen_consult Scenarios.hosted0 2
                    DEFAULT_MAX_TURNS a [IUser arg])
    10 [IUser "Gross profit?"] 10 triage_agent [] =
  RunOk "Gross profit is 100" "triage_agent"
    [IToolCall "triage_agent" "consult_basic_specialist" "Gross profit 2024" "100";
     IMessage "triage_agent" "Gross profit is 100"].
Proof.
  destruct (triage_consult_and_handoff Scenarios.gen_consult Scenarios.hosted0
              (fun a arg => run_agent Scenarios.gen_consult Scenarios.hosted0 2
                              DEFAULT_MAX_TURNS a [IUser arg])
              10 [IUser "Gross profit?"] 9 []) as [[_ [_ [Htool _]]] _].
  rewrite (Htool "Gross profit 2024"); [|reflexivity].
  vm_compute. reflexivity.
Defined.

(* ================================================================== *)
(** * Further properties of the configuration and of [main] *)


(** X1. The configuration is consistent: agent names are distinct, every
    hand-off target and every agent exposed as a tool is an agent of the
    module, and within each agent the tool names and [transfer_to_...]
    names are pairwise distinct, so a call name selects one tool. *)
Theorem configuration_well_formed :
  NoDup (map name agents) /\
  (forall A h, In A agents -> In h (handoffs A) ->
     exists B, lookup_agent h = Some B /\ name B = h) /\
  (forall A tn td an, In A agents -> In (AgentAsTool tn td an) (tools A) ->
     exists B, lookup_agent an = Some B /\ name B = an) /\
  (forall A, In A agents ->
     NoDup (map tool_name (tools A) ++ map transfer_name (handoffs A))).
Proof.
  split; [|split; [|split]].
  - cbn. repeat constructor; cbn; intuition discriminate.
  - intros A h HA Hh. destruct (config_handoffs_resolve A h HA Hh) as [B HB].
    exists B. split; [exact HB|exact (proj2 (lookup_some_in _ _ HB))].
  - intros A tn td an HA Hin. agent_cases HA; cbn in Hin;
      repeat destruct Hin as [E|Hin]; try discriminate; try contradiction;
      injection E as <- <- <-; eexists; split; reflexivity.
  - intros A HA. agent_cases HA; cbn; repeat constructor; cbn;
      intuition discriminate.
Qed.

(** X2. Hand-offs only go down the chain triage, assumption, critic: in a
    run of a question every hand-off event goes to an agent of lower rank
    than its source, so a run has at most two hand-offs, and at most one
    when it ends with the assumption agent, none when it ends with the
    triage agent. *)
Theorem handoffs_descend_chain :
  forall gen hosted q s last items,
    run_question gen hosted q = RunOk s last items ->
    List.length (handoff_events items) + handoff_rank last <= 2 /\
    (forall src dst, In (src, dst) (handoff_events items) ->
       handoff_rank dst < handoff_rank src).
Proof.
  intros gen hosted q s last items H. split.
  - unfold run_question, nesting_fuel in H. cbn [run_agent] in H.
    apply run_loop_handoff_descent in H; [|cbn; tauto].
    cbn in H. exact H.
  - intros src dst Hin.
    assert (Ha : audit_items items = true)
      by (exact (run_agent_audit gen hosted _ _ triage_agent _ s last items
                   (ltac:(cbn; tauto)) H)).
    pose proof (audit_items_in _ _ Ha (in_handoff_events _ _ _ Hin)) as E.
    cbn [item_allowed] in E. unfold handoff_allowed in E.
    destruct (lookup_agent src) as [A|] eqn:El; [|discriminate].
    destruct (lookup_some_in _ _ El) as [HA <-].
    apply existsb_exists in E. destruct E as [h [Hh Eh]].
    apply String.eqb_eq in Eh. subst h.
    exact (config_handoffs_descend A dst HA Hh).
Qed.

Lemma handoffs_descend_chain_witness :
  List.length (handoff_events
    [IHandoff "triage_agent" "assumption_agent";
     IMessage "assumption_agent" "EV/Sales is 2.1";
     IHandoff "assumption_agent" "critic_agent";
     IMessage "critic_agent" "Critique: EV/Sales is 1.9"]) +
    handoff_rank "critic_agent" <= 2.
Proof.
  apply (proj1 (handoffs_descend_chain Scenarios.gen_review Scenarios.hosted0
                  "Determine the EV/Sales ratio for 2024."
                  "Critique: EV/Sales is 1.9" "critic_agent" _ eq_refl)).
Defined.

(** X3. A run of a question fails in three ways only: ten model calls
    without a final output ([MaxTurnsExceeded 10], the default limit, as
    [main] passes no [max_turns]), a call of a name that is neither a tool
    nor a hand-off of the current agent ([ModelBehaviorError]), or an
    exception of the model API call (for instance the request rejected
    because the hard-coded vector store is missing); an unresolvable
    hand-off target cannot occur, since every configured hand-off
    resolves. *)
Theorem run_question_errors :
  forall gen hosted q e,
    run_question gen hosted q = RunErr e ->
    e = MaxTurnsExceeded 10 \/ (exists m, e = ModelBehaviorError m) \/
    (exists m, e = APIError m).
Proof.
  intros gen hosted q e H. unfold run_question, nesting_fuel in H.
  cbn [run_agent] in H.
  exact (run_loop_error gen hosted _ _ _ _ triage_agent [] e (ltac:(cbn; tauto)) H).
Qed.

Lemma run_question_errors_witness :
  APIError "Error code: 400 - Vector store not found" = MaxTurnsExceeded 10 \/
  (exists m, APIError "Error code: 400 - Vector store not found" =
             ModelBehaviorError m) \/
  (exists m, APIError "Error code: 400 - Vector store not found" = APIError m).
Proof.
  apply (run_question_errors Scenarios.gen_api_down Scenarios.hosted0
           "What is Gross Profit in the year ending 2024?").
  vm_compute. reflexivity.
Defined.

(** X4. A response that only calls hosted tools of the agent (file or
    web search), with no text, no agent-tool call and no hand-off, ends
    the run at once: the final output is the empty string and the run
    ends with that agent; the model is not called again. *)
Theorem hosted_only_response_ends_run :
  forall gen hosted run_sub mt input t cur generated acts,
    gen (name cur) (input ++ generated) = Responded acts ->
    forallb (hosted_call cur) acts = true ->
    exists items,
      run_loop gen hosted run_sub mt input (S t) cur generated =
      RunOk "" (name cur) (generated ++ items).
Proof.
  intros gen hosted run_sub mt input t cur generated acts Hg Ha.
  destruct (process_actions_hosted_only hosted run_sub cur acts empty_processed Ha)
    as [items E].
  exists items. rewrite run_loop_unfold, Hg, E. reflexivity.
Qed.

(** The triage agent only searches the context: the run's answer is the
    empty string. *)
Lemma hosted_only_response_ends_run_witness :
  exists items,
    run_loop Scenarios.gen_silent Scenarios.hosted0
      (fun _ _ => RunErr NestingTooDeep) 10 [IUser "Gross profit?"] 9
      triage_agent [] = RunOk "" (name triage_agent) ([] ++ items).
Proof.
  apply (hosted_only_response_ends_run _ _ _ _ _ _ triage_agent _
           [ACall "file_search" "gross profit"]); reflexivity.
Defined.

(** X5. The result of the [consult_assumption_specialist] tool is not the
    nested run's final output but the texts of all its messages joined: when
    the assumption agent answers [a] and hands off to the critic, which
    answers [c], the triage agent gets [a ++ c] as tool result, and the
    final output is then the triage agent's own answer. *)
Theorem consult_result_joins_texts :
  forall gen hosted q arg a h c r,
    gen "triage_agent" [IUser q] =
      Responded [ACall "consult_assumption_specialist" arg] ->
    gen "assumption_agent" [IUser arg] =
      Responded [AText a; ACall "transfer_to_critic_agent" h] ->
    gen "critic_agent"
      [IUser arg; IMessage "assumption_agent" a;
       IHandoff "assumption_agent" "critic_agent"] = Responded [AText c] ->
    gen "triage_agent"
      [IUser q; IToolCall "triage_agent" "consult_assumption_specialist" arg
                  (a ++ c)%string] = Responded [AText r] ->
    run_question gen hosted q =
    RunOk r "triage_agent"
      [IToolCall "triage_agent" "consult_assumption_specialist" arg (a ++ c)%string;
       IMessage "triage_agent" r].
Proof.
  intros gen hosted q arg a h c r Ht1 Ha Hc Ht2.
  assert (Hsub : run_agent gen hosted 2 DEFAULT_MAX_TURNS assumption_agent [IUser arg] =
                 RunOk c "critic_agent"
                   [IMessage "assumption_agent" a;
                    IHandoff "assumption_agent" "critic_agent";
                    IMessage "critic_agent" c]).
  { cbn [run_agent]. unfold DEFAULT_MAX_TURNS at 4. rewrite run_loop_unfold.
    change (name assumption_agent) with "assumption_agent".
    change ([IUser arg] ++ []) with [IUser arg]. rewrite Ha. cbn -[run_loop].
    rewrite (run_loop_text_final gen hosted _ _ [IUser arg] _ critic_agent _ c Hc).
    reflexivity. }
  unfold run_question, nesting_fuel.
  change (run_agent gen hosted 3 DEFAULT_MAX_TURNS triage_agent [IUser q]) with
    (run_loop gen hosted
       (fun A x => run_agent gen hosted 2 DEFAULT_MAX_TURNS A [IUser x])
       DEFAULT_MAX_TURNS [IUser q] 10 triage_agent []).
  rewrite run_loop_unfold.
  change (name triage_agent) with "triage_agent".
  change ([IUser q] ++ []) with [IUser q]. rewrite Ht1.
  cbn -[run_loop run_agent execute].
  assert (Hx : execute hosted
                 (fun A x => run_agent gen hosted 2 DEFAULT_MAX_TURNS A [IUser x])
                 (AgentAsTool "consult_assumption_specialist"
                    "Use when the question is classified as assumption-based."
                    "assumption_agent") arg = (a ++ c)%string).
  { unfold execute. change (lookup_agent "assumption_agent") with (Some assumption_agent).
    cbv beta iota. rewrite Hsub. cbn [text_message_outputs].
    rewrite string_app_nil_r. reflexivity. }
  rewrite Hx.
  rewrite (run_loop_text_final gen hosted _ _ [IUser q] _ triage_agent _ r Ht2).
  reflexivity.
Qed.

(** The triage agent's tool result carries both the
    assumption agent's figure and the critic's. *)
Lemma consult_result_joins_texts_witness :
  run_question Scenarios.gen_consult_review Scenarios.hosted0 "EV/Sales?" =
  RunOk "EV/Sales is 1.9" "triage_agent"
    [IToolCall "triage_agent" "consult_assumption_specialist" "EV/Sales 2024"
       ("EV/Sales is 2.1" ++ "Critique: 1.9")%string;
     IMessage "triage_agent" "EV/Sales is 1.9"].
Proof.
  apply (consult_result_joins_texts _ _ _ _ _ ""); reflexivity.
Defined.

(** X6. [main] reports on the questions in order and stops at the first
    question whose run raises: every question before it has its report,
    the error returned is that question's, and the questions after it are
    not run; with no error, every question has a report. *)
Theorem main_loop_stops_at_first_error :
  forall gen hosted qs rs err,
    main_loop gen hosted qs = (rs, err) ->
    List.length rs <= List.length qs /\
    (forall i, i < List.length rs ->
       main_question gen hosted (nth i qs "") = Some (nth i rs NoHandoffDetected)) /\
    (err = None -> List.length rs = List.length qs) /\
    (forall e, err = Some e ->
       run_question gen hosted (nth (List.length rs) qs "") = RunErr e).
Proof.
  intros gen hosted qs.
  induction qs as [|q qs IH]; intros rs err H.
  - cbn [main_loop] in H. injection H as <- <-. cbn [List.length].
    split; [lia|split; [intros i Hi; lia|split; [reflexivity|discriminate]]].
  - cbn [main_loop] in H.
    destruct (run_question gen hosted q) as [s last items|e] eqn:Hq.
    + destruct (main_loop gen hosted qs) as [rs' err'] eqn:Hm.
      injection H as <- <-.
      destruct (IH rs' err' eq_refl) as (H1 & H2 & H3 & H4).
      cbn [List.length]. split; [lia|split; [|split]].
      * intros [|i] Hi; cbn [nth].
        -- unfold main_question. rewrite Hq. reflexivity.
        -- apply H2. lia.
      * intros E. rewrite (H3 E). reflexivity.
      * intros e E. cbn [nth]. exact (H4 e E).
    + injection H as <- <-. cbn [List.length nth].
      split; [lia|split; [intros i Hi; lia|split; [discriminate|]]].
      intros e' E. injection E as <-. exact Hq.
Qed.

Lemma main_loop_stops_at_first_error_witness :
  run_question Scenarios.gen_batch Scenarios.hosted0
    (nth 1 ["good"; "bad"; "good"] "") =
  RunErr (ModelBehaviorError "Tool calculator not found in agent triage_agent").
Proof.
  apply (proj2 (proj2 (proj2 (main_loop_stops_at_first_error
     Scenarios.gen_batch Scenarios.hosted0 ["good"; "bad"; "good"]
     [NoHandoffDetected]
     (Some (ModelBehaviorError "Tool calculator not found in agent triage_agent"))
     (ltac:(vm_compute; reflexivity)))))).
  reflexivity.
Defined.
